(** * ObjectStorePreview: the Azure blob adapter of the Velero plugin

    A shallow embedding of [object_store_preview.go].  The adapter is a thin
    layer over the azblob SDK; the SDK and the remote service are kept
    abstract behind the class [Azblob], the adapter's methods are written
    against it in a small state monad, and a reference in-memory store
    instantiates the class for concrete runs. *)

From Stdlib Require Import ZArith Ascii String List Bool Lia.
From stdpp Require Import base option strings gmap.
Import ListNotations.

Local Open Scope string_scope.

(** ** Go values the adapter handles *)

(** [*http.Response]; the adapter reads its [StatusCode] only. *)
Record Response := { StatusCode : Z }.

(** Go's [error] interface.  The adapter inspects an error in one way only:
    the type assertion [err.(azblob.StorageError)] followed by
    [Response().StatusCode].  A nil [error] is [None] of [option error]. *)
Inductive error :=
| StorageError (resp : Response)
| errorString (msg : string).

(** [errors.New] of github.com/pkg/errors: a plain error value. *)
Definition errors_New (msg : string) : error := errorString msg.

(** The type assertion [storageErr, ok := err.(azblob.StorageError)]. *)
Definition as_StorageError (err : error) : option Response :=
  match err with
  | StorageError resp => Some resp
  | errorString _ => None
  end.

(** A not-found answer of the service: an [azblob.StorageError] whose
    response has status 404. *)
Definition not_found (e : error) : Prop :=
  ∃ resp, e = StorageError resp ∧ StatusCode resp = 404%Z.

(** Run-time panics of the Go program. *)
Inductive panic := NilPointerDereference.

(** How a call ends: it returns, it panics, or the model ran out of fuel
    (only the paging loop of [ListObjects] consumes fuel). *)
Inductive outcome (S A : Type) :=
| Returned (a : A) (s : S)
| Panicked (p : panic) (s : S)
| OutOfFuel.
Arguments Returned {S A} a s.
Arguments Panicked {S A} p s.
Arguments OutOfFuel {S A}.

(** [azblob.DeleteSnapshotsOptionType]. *)
Inductive DeleteSnapshotsOptionType :=
| DeleteSnapshotsOptionNone
| DeleteSnapshotsOptionInclude
| DeleteSnapshotsOptionOnly.

(** [azblob.Marker]: a continuation token, [Val *string]. *)
Record Marker := { Val : option string }.

(** [Marker.NotDone]: true for the zero marker (listing not started) and for
    a non-empty token; false for the empty token. *)
Definition NotDone (m : Marker) : bool :=
  match Val m with
  | None => true
  | Some s => negb (String.eqb s EmptyString)
  end.

Record BlobItem := { Name : string }.
Record BlobFlatListSegment := { BlobItems : list BlobItem }.
Record ListBlobsFlatSegmentResponse :=
  { NextMarker : Marker; Segment : BlobFlatListSegment }.

(** [azblob.ListBlobsSegmentOptions]; the adapter passes the zero value. *)
Record ListBlobsSegmentOptions := { Prefix : string; MaxResults : Z }.
Definition ListBlobsSegmentOptions_zero : ListBlobsSegmentOptions :=
  {| Prefix := EmptyString; MaxResults := 0 |}.

(** [azblob.CountToEnd]. *)
Definition CountToEnd : Z := 0.

(** ** Strings *)

(** [strings.Index s substr]: index of the first occurrence of [substr] in
    [s], or -1. *)
Definition strings_Index (s substr : string) : Z :=
  match String.index 0 substr s with
  | Some n => Z.of_nat n
  | None => (-1)%Z
  end.

(** [fmt.Sprintf(blob_url_suffix, account)] with
    [blob_url_suffix = "https://%s.blob.core.windows.net"]. *)
Definition blob_url_suffix (account : string) : string :=
  "https://" ++ account ++ ".blob.core.windows.net".

(** [m[k]] on a Go [map[string]string]: the empty string when absent. *)
Definition map_index (m : gmap string string) (k : string) : string :=
  default EmptyString (m !! k).

(** ** Configuration keys *)

(** Modelled from the spec: the four configuration key constants are declared
    in another file of the plugin; section 6 of the specification lists them. *)
Definition resourceGroupConfigKey : string := "resource-group".
(** Modelled from the spec: see [resourceGroupConfigKey]. *)
Definition storageAccountConfigKey : string := "storage-account".
(** Modelled from the spec: see [resourceGroupConfigKey]. *)
Definition subscriptionIDConfigKey : string := "subscription-id".
(** Modelled from the spec: see [resourceGroupConfigKey]. *)
Definition storageAccountKeyEnvVarConfigKey : string := "storage-account-key-env-var".

(** ** The SDK and the remote service *)

(** The types the SDK and the environment provide and the adapter treats as
    opaque: the state [World] of the remote service, [azure.Environment],
    [azblob.SharedKeyCredential], [url.URL] and [azblob.DownloadResponse]. *)
Class AzblobTypes := {
  World : Type;
  Environment : Type;
  SharedKeyCredential : Type;
  URL : Type;
  DownloadResponse : Type;
}.

(** [pipeline.Pipeline] as built by [azblob.NewPipeline(cred, opts)]; [cred]
    is the pointer returned by [NewSharedKeyCredential]. *)
Record Pipeline {T : AzblobTypes} := { pipeline_cred : option SharedKeyCredential }.

(** [azblob.ServiceURL], [ContainerURL], [BlobURL] and [BlockBlobURL]: an
    endpoint, a pipeline and the names appended so far. *)
Record ServiceURL {T : AzblobTypes} :=
  { service_url : URL; service_pipeline : Pipeline }.
Record ContainerURL {T : AzblobTypes} :=
  { container_service : ServiceURL; containerName : string }.
Record BlobURL {T : AzblobTypes} :=
  { blob_container : ContainerURL; blobName : string }.
Record BlockBlobURL {T : AzblobTypes} := { block_BlobURL : BlobURL }.

Section Handles.
Context {T : AzblobTypes}.

Definition NewPipeline (cred : option SharedKeyCredential) : Pipeline :=
  {| pipeline_cred := cred |}.
Definition NewServiceURL (u : URL) (p : Pipeline) : ServiceURL :=
  {| service_url := u; service_pipeline := p |}.
Definition NewContainerURL (s : ServiceURL) (containerName : string) : ContainerURL :=
  {| container_service := s; containerName := containerName |}.
Definition NewBlobURL (c : ContainerURL) (blobName : string) : BlobURL :=
  {| blob_container := c; blobName := blobName |}.
Definition NewBlockBlobURL (c : ContainerURL) (blobName : string) : BlockBlobURL :=
  {| block_BlobURL := NewBlobURL c blobName |}.
End Handles.

(** What the adapter calls and does not define: the helpers of [Init]
    (velero's validator, the plugin's key resolver, the SDK's credential
    constructor, [url.Parse]) and the five remote requests.  A remote request
    reads and may change the [World].  A Go result [(p, err)] with [p] a
    pointer is a pair of options; results the adapter discards are left out. *)
Class Azblob {T : AzblobTypes} := {
  ValidateObjectStoreConfigKeys : gmap string string → list string → option error;
  getStorageAccountKey :
    gmap string string → string * option Environment * option error;
  NewSharedKeyCredential :
    string → string → option SharedKeyCredential * option error;
  url_Parse : string → option URL * option error;
  UploadStreamToBlockBlob :
    list Byte.byte → BlockBlobURL → World → option error * World;
  GetProperties : BlobURL → World → option error * World;
  Download :
    BlobURL → Z → Z → World → (option DownloadResponse * option error) * World;
  Body : DownloadResponse → list Byte.byte;
  ListBlobsFlatSegment :
    ContainerURL → Marker → ListBlobsSegmentOptions →
    World → (option ListBlobsFlatSegmentResponse * option error) * World;
  Delete : BlobURL → DeleteSnapshotsOptionType → World → option error * World;
}.

(** ** The call monad *)

Section Monad.
Context {T : AzblobTypes}.

(** A computation against the remote service. *)
Definition M (A : Type) : Type := World → outcome World A.

Definition ret {A} (a : A) : M A := λ w, Returned a w.

Definition bind {A B} (m : M A) (f : A → M B) : M B :=
  λ w, match m w with
       | Returned a w' => f a w'
       | Panicked p w' => Panicked p w'
       | OutOfFuel => OutOfFuel
       end.

(** One request to the SDK. *)
Definition call {A} (f : World → A * World) : M A :=
  λ w, let (a, w') := f w in Returned a w'.

Definition throw {A} (p : panic) : M A := λ w, Panicked p w.

Definition out_of_fuel {A} : M A := λ _, OutOfFuel.

(** [*p] and [p.f] on a pointer [p]. *)
Definition deref {A} (p : option A) : M A :=
  match p with
  | Some a => ret a
  | None => throw NilPointerDereference
  end.
End Monad.

Notation "x <- c ;; k" := (bind c (λ x, k))
  (at level 100, c at next level, k at level 200, right associativity,
   format "'[v' x  <-  c  ;;  '/' k ']'").

(** ** The adapter *)

(** [type ObjectStorePreview struct { pipeline *pipeline.Pipeline;
    service *azblob.ServiceURL }]; the zero value has both pointers nil. *)
Record ObjectStorePreview {T : AzblobTypes} :=
  { pipeline : option Pipeline; service : option ServiceURL }.

Section Adapter.
Context {T : AzblobTypes} {sdk : Azblob}.

Definition ObjectStorePreview_zero : ObjectStorePreview :=
  {| pipeline := None; service := None |}.

(** The two states of the adapter. *)
Definition Uninitialized (o : ObjectStorePreview) : Prop :=
  pipeline o = None ∧ service o = None.
Definition Ready (o : ObjectStorePreview) : Prop :=
  is_Some (pipeline o) ∧ is_Some (service o).

(** [Init].  The receiver is a pointer: the state is the adapter itself.
    The error of [url.Parse] is assigned to [_]; the test that follows
    reads [err] of the credential call. *)
Definition Init (o : ObjectStorePreview) (config : gmap string string)
  : outcome ObjectStorePreview (option error) :=
  match ValidateObjectStoreConfigKeys config
          [resourceGroupConfigKey; storageAccountConfigKey;
           subscriptionIDConfigKey; storageAccountKeyEnvVarConfigKey] with
  | Some err => Returned (Some err) o
  | None =>
    let '(storageAccountKey, _, err) := getStorageAccountKey config in
    match err with
    | Some _ => Returned err o
    | None =>
      let '(cred, err) :=
        NewSharedKeyCredential (map_index config storageAccountConfigKey)
                               storageAccountKey in
      match err with
      | Some _ => Returned err o
      | None =>
        let '(u, _) :=
          url_Parse (blob_url_suffix (map_index config storageAccountConfigKey)) in
        match err with
        | Some _ => Returned err o
        | None =>
          let pipeline := NewPipeline cred in
          match u with
          | None => Panicked NilPointerDereference o
          | Some u =>
            let service := NewServiceURL u pipeline in
            Returned None {| pipeline := Some pipeline; service := Some service |}
          end
        end
      end
    end
  end.

Definition PutObject (o : ObjectStorePreview) (bucket key : string)
    (body : list Byte.byte) : M (option error) :=
  s <- deref (service o) ;;
  let container := NewContainerURL s bucket in
  let blobURL := NewBlockBlobURL container key in
  err <- call (UploadStreamToBlockBlob body blobURL) ;;
  match err with
  | Some _ => ret err
  | None => ret None
  end.

Definition ObjectExists (o : ObjectStorePreview) (bucket key : string)
  : M (bool * option error) :=
  s <- deref (service o) ;;
  let container := NewContainerURL s bucket in
  let blob := NewBlobURL container key in
  err <- call (GetProperties blob) ;;
  match err with
  | None => ret (true, err)
  | Some e =>
    match as_StorageError e with
    | Some resp =>
      if (StatusCode resp =? 404)%Z then ret (false, None)
      else ret (false, err)
    | None => ret (false, err)
    end
  end.

Definition GetObject (o : ObjectStorePreview) (bucket key : string)
  : M (option (list Byte.byte) * option error) :=
  s <- deref (service o) ;;
  let container := NewContainerURL s bucket in
  let blobURL := NewBlockBlobURL container key in
  r <- call (Download (block_BlobURL blobURL) 0 CountToEnd) ;;
  let '(response, err) := r in
  match err with
  | Some _ => ret (None, err)
  | None =>
    response <- deref response ;;
    ret (Some (Body response), None)
  end.

Definition ListCommonPrefixes (o : ObjectStorePreview)
    (bucket prefix delimiter : string) : M (list string * option error) :=
  ret ([], None).

(** The test of the inner loop of [ListObjects]. *)
Definition name_matches (prefix name : string) : bool :=
  String.eqb prefix EmptyString || (strings_Index name prefix =? 0)%Z.

(** [for _, blobInfo := range items { if ... { objects = append(...) } }] *)
Definition append_matching (prefix : string) (items : list BlobItem)
    (objects : list string) : list string :=
  fold_left
    (λ objects blobInfo,
       if name_matches prefix (Name blobInfo)
       then (objects ++ [Name blobInfo])%list else objects)
    items objects.

(** [for marker.NotDone() { ... }]; one unit of fuel per iteration. *)
Fixpoint ListObjects_loop (fuel : nat) (container : ContainerURL)
    (prefix : string) (marker : Marker) (objects : list string)
  : M (list string * option error) :=
  if NotDone marker then
    match fuel with
    | O => out_of_fuel
    | S fuel' =>
      r <- call (ListBlobsFlatSegment container marker ListBlobsSegmentOptions_zero) ;;
      let '(listBlob, err) := r in
      match err with
      | Some _ => ret ([], err)
      | None =>
        listBlob <- deref listBlob ;;
        let marker := NextMarker listBlob in
        let objects :=
          append_matching prefix (BlobItems (Segment listBlob)) objects in
        ListObjects_loop fuel' container prefix marker objects
      end
    end
  else ret (objects, None).

Definition ListObjects (fuel : nat) (o : ObjectStorePreview)
    (bucket prefix : string) : M (list string * option error) :=
  s <- deref (service o) ;;
  let container := NewContainerURL s bucket in
  ListObjects_loop fuel container prefix {| Val := None |} [].

Definition DeleteObject (o : ObjectStorePreview) (bucket key : string)
  : M (option error) :=
  s <- deref (service o) ;;
  let container := NewContainerURL s bucket in
  let blobURL := NewBlockBlobURL container key in
  err <- call (Delete (block_BlobURL blobURL) DeleteSnapshotsOptionNone) ;;
  match err with
  | Some _ => ret err
  | None => ret None
  end.

Definition CreateSignedURL (o : ObjectStorePreview) (bucket key : string)
    (ttl : Z) : M (string * option error) :=
  ret (EmptyString, Some (errors_New "Not Implemented")).
End Adapter.

(** ** A reference store

    An in-memory blob service instantiating [Azblob], used to run the adapter
    on concrete inputs.  It keeps, per blob, its container, name, content and
    number of snapshots, and follows the REST documentation of the requests
    the adapter sends: a missing blob answers 404; a delete without the
    snapshots option on a blob that has snapshots answers 409 and deletes
    nothing; a listing is served in pages, the marker naming the first blob
    of the next page.  [budget] counts the requests served before the
    transport starts failing. *)
Module Ref.

Record Blob := {
  blob_in : string;
  blob_key : string;
  content : list Byte.byte;
  snapshots : nat;
}.

Record Store := { blobs : list Blob; budget : option nat }.

Definition types : AzblobTypes := {|
  World := Store;
  Environment := unit;
  SharedKeyCredential := string * string;
  URL := string;
  DownloadResponse := list Byte.byte;
|}.
#[local] Existing Instance types.

Definition status (code : Z) : error := StorageError {| StatusCode := code |}.
Definition transport_error : error := errorString "connection reset by peer".

(** Serve a request, unless the transport is down. *)
Definition request {A} (down : A) (serve : Store → A * Store) (w : Store)
  : A * Store :=
  match budget w with
  | None => serve w
  | Some (S n) => serve {| blobs := blobs w; budget := Some n |}
  | Some O => (down, w)
  end.

(** The store a request is served in, when the transport is up: the same
    blobs, one request less to serve. *)
Definition served (w : Store) : option Store :=
  match budget w with
  | None => Some w
  | Some (S n) => Some {| blobs := blobs w; budget := Some n |}
  | Some O => None
  end.

Definition is_blob (c k : string) (b : Blob) : bool :=
  String.eqb (blob_in b) c && String.eqb (blob_key b) k.
Definition find_blob (c k : string) (bs : list Blob) : option Blob :=
  List.find (is_blob c k) bs.
Definition remove_blob (c k : string) (bs : list Blob) : list Blob :=
  List.filter (λ b, negb (is_blob c k b)) bs.
Definition with_blobs (w : Store) (bs : list Blob) : Store :=
  {| blobs := bs; budget := budget w |}.

Definition in_container (u : BlobURL) : string := containerName (blob_container u).

Definition GetProperties (u : BlobURL) : Store → option error * Store :=
  request (Some transport_error)
    (λ w, match find_blob (in_container u) (blobName u) (blobs w) with
          | Some _ => (None, w)
          | None => (Some (status 404), w)
          end).

Definition UploadStreamToBlockBlob (body : list Byte.byte) (u : BlockBlobURL)
  : Store → option error * Store :=
  let c := in_container (block_BlobURL u) in
  let k := blobName (block_BlobURL u) in
  request (Some transport_error)
    (λ w, let kept := match find_blob c k (blobs w) with
                      | Some b => snapshots b
                      | None => O
                      end in
          (None,
           with_blobs w
             ({| blob_in := c; blob_key := k; content := body; snapshots := kept |}
                :: remove_blob c k (blobs w)))).

Definition Download (u : BlobURL) (offset count : Z)
  : Store → (option (list Byte.byte) * option error) * Store :=
  request (None, Some transport_error)
    (λ w, match find_blob (in_container u) (blobName u) (blobs w) with
          | Some b =>
            let tail := skipn (Z.to_nat offset) (content b) in
            let data := if (count =? CountToEnd)%Z then tail
                        else firstn (Z.to_nat count) tail in
            ((Some data, None), w)
          | None => ((None, Some (status 404)), w)
          end).

Definition Delete (u : BlobURL) (opt : DeleteSnapshotsOptionType)
  : Store → option error * Store :=
  let c := in_container u in
  let k := blobName u in
  request (Some transport_error)
    (λ w, match find_blob c k (blobs w) with
          | None => (Some (status 404), w)
          | Some b =>
            match opt with
            | DeleteSnapshotsOptionInclude =>
              (None, with_blobs w (remove_blob c k (blobs w)))
            | DeleteSnapshotsOptionOnly =>
              (None,
               with_blobs w
                 ({| blob_in := c; blob_key := k; content := content b;
                     snapshots := O |} :: remove_blob c k (blobs w)))
            | DeleteSnapshotsOptionNone =>
              match snapshots b with
              | O => (None, with_blobs w (remove_blob c k (blobs w)))
              | S _ => (Some (status 409), w)
              end
            end
          end).

(** Listing: the names of the container, a page at a time. *)
Definition page_size (opts : ListBlobsSegmentOptions) : nat :=
  if (MaxResults opts =? 0)%Z then 2%nat else Z.to_nat (MaxResults opts).

Definition names_in (c : string) (opts : ListBlobsSegmentOptions)
    (bs : list Blob) : list string :=
  List.filter (String.prefix (Prefix opts))
    (map blob_key (List.filter (λ b, String.eqb (blob_in b) c) bs)).

Fixpoint from_marker (token : string) (names : list string) : list string :=
  match names with
  | [] => []
  | n :: rest => if String.eqb n token then names else from_marker token rest
  end.

Definition ListBlobsFlatSegment (c : ContainerURL) (marker : Marker)
    (opts : ListBlobsSegmentOptions)
  : Store → (option ListBlobsFlatSegmentResponse * option error) * Store :=
  request (None, Some transport_error)
    (λ w, let all := names_in (containerName c) opts (blobs w) in
          let pending := match Val marker with
                         | None => all
                         | Some token => from_marker token all
                         end in
          let next := match skipn (page_size opts) pending with
                      | [] => EmptyString
                      | n :: _ => n
                      end in
          ((Some {| NextMarker := {| Val := Some next |};
                    Segment := {| BlobItems :=
                      map (λ n, {| Name := n |}) (firstn (page_size opts) pending) |} |},
            None), w)).

(** The helpers of [Init], none of which is in the file of the adapter. *)

(** velero's validator: an error when a key of the config is none of the
    listed keys nor one of bucket, prefix and caCert, which it always
    allows; it does not test that a key is present.  The message names the
    keys refused (Go ranges over the map in no fixed order) and the keys
    allowed. *)
Definition brackets (l : list string) : string :=
  String.append "[" (String.append (String.concat " " l) "]").

Definition ValidateObjectStoreConfigKeys (config : gmap string string)
    (keys : list string) : option error :=
  let validKeys := (keys ++ ["bucket"; "prefix"; "caCert"])%list in
  let invalidKeys :=
    List.filter (λ k, negb (bool_decide (k ∈ validKeys)))
                (map fst (map_to_list config)) in
  match invalidKeys with
  | [] => None
  | _ :: _ =>
    Some (errorString
            (String.append "config has invalid keys "
               (String.append (brackets invalidKeys)
                  (String.append "; valid keys are " (brackets validKeys)))))
  end.

(** The key resolver of the plugin, as the specification describes it: the
    key is read from the environment variable the config names. *)
Definition getStorageAccountKey (environ config : gmap string string)
  : string * option unit * option error :=
  let key := map_index environ (map_index config storageAccountKeyEnvVarConfigKey) in
  if String.eqb key EmptyString then (EmptyString, None, Some (errorString "no storage account key found"))
  else (key, Some (), None).

(** [azblob.NewSharedKeyCredential] decodes the key with
    [base64.StdEncoding]: line feeds and carriage returns are skipped, the
    rest is read four characters at a time, and padding may only end the
    last group.  On an error it returns an empty credential with the error. *)
Definition is_base64_char (a : Ascii.ascii) : bool :=
  let n := Ascii.nat_of_ascii a in
  ((65 <=? n) && (n <=? 90) || (97 <=? n) && (n <=? 122)
   || (48 <=? n) && (n <=? 57) || (n =? 43) || (n =? 47))%nat.

Definition is_newline (a : Ascii.ascii) : bool :=
  let n := Ascii.nat_of_ascii a in ((n =? 10) || (n =? 13))%nat.

Definition is_pad (a : Ascii.ascii) : bool := (Ascii.nat_of_ascii a =? 61)%nat.

Fixpoint base64_groups (fuel : nat) (l : list Ascii.ascii) : bool :=
  match fuel with
  | O => false
  | S fuel' =>
    match l with
    | [] => true
    | a :: b :: c :: d :: rest =>
      is_base64_char a && is_base64_char b &&
      (if is_base64_char c then
         if is_base64_char d then base64_groups fuel' rest
         else is_pad d && match rest with [] => true | _ :: _ => false end
       else is_pad c && is_pad d && match rest with [] => true | _ :: _ => false end)
    | _ => false
    end
  end.

Definition base64_DecodeString_ok (s : string) : bool :=
  let l := List.filter (λ a, negb (is_newline a)) (list_ascii_of_string s) in
  base64_groups (S (List.length l)) l.

Definition NewSharedKeyCredential (accountName accountKey : string)
  : option (string * string) * option error :=
  if base64_DecodeString_ok accountKey
  then (Some (accountName, accountKey), None)
  else (Some (EmptyString, EmptyString), Some (errorString "illegal base64 data")).

(** [url.Parse] of Go's net/url, as far as it decides between a URL and an
    error; the URL itself is kept as the string parsed. *)
Definition is_CTL (a : Ascii.ascii) : bool :=
  let n := Ascii.nat_of_ascii a in ((n <? 32) || (n =? 127))%nat.

Definition is_letter (a : Ascii.ascii) : bool :=
  let n := Ascii.nat_of_ascii a in
  ((65 <=? n) && (n <=? 90) || (97 <=? n) && (n <=? 122))%nat.

Definition is_digit (a : Ascii.ascii) : bool :=
  let n := Ascii.nat_of_ascii a in ((48 <=? n) && (n <=? 57))%nat.

Definition one_of (set : string) (a : Ascii.ascii) : bool :=
  existsb (Ascii.eqb a) (list_ascii_of_string set).

Definition ishex (a : Ascii.ascii) : bool :=
  is_digit a || one_of "abcdefABCDEF" a.

Definition unhex (a : Ascii.ascii) : nat :=
  let n := Ascii.nat_of_ascii a in
  if is_digit a then n - 48
  else if ((97 <=? n) && (n <=? 102))%nat then n - 97 + 10
  else if ((65 <=? n) && (n <=? 70))%nat then n - 65 + 10
  else 0.

(** [strings.Cut] at a byte: what precedes it and, when it occurs, what
    follows it. *)
Fixpoint cut (c : Ascii.ascii) (s : list Ascii.ascii)
  : list Ascii.ascii * option (list Ascii.ascii) :=
  match s with
  | [] => ([], None)
  | a :: s' =>
    if Ascii.eqb a c then ([], Some s')
    else let (before, after) := cut c s' in (a :: before, after)
  end.

(** The split at [strings.LastIndex]: what precedes the last occurrence of
    the byte and what follows it. *)
Fixpoint cut_last (c : Ascii.ascii) (s : list Ascii.ascii)
  : option (list Ascii.ascii * list Ascii.ascii) :=
  match s with
  | [] => None
  | a :: s' =>
    match cut_last c s' with
    | Some (before, after) => Some (a :: before, after)
    | None => if Ascii.eqb a c then Some ([], s') else None
    end
  end.

Fixpoint has_prefix (p s : list Ascii.ascii) : bool :=
  match p, s with
  | [], _ => true
  | _ :: _, [] => false
  | a :: p', b :: s' => Ascii.eqb a b && has_prefix p' s'
  end.

(** The split at [strings.Index] of a substring: what precedes its first
    occurrence, and the rest from there on. *)
Fixpoint cut_at (sub s : list Ascii.ascii)
  : option (list Ascii.ascii * list Ascii.ascii) :=
  if has_prefix sub s then Some ([], s)
  else match s with
       | [] => None
       | a :: s' =>
         match cut_at sub s' with
         | Some (before, from) => Some (a :: before, from)
         | None => None
         end
       end.

Inductive encoding := encodeHost | encodeZone | encodeOther.

(** [shouldEscape] in the host and zone modes. *)
Definition shouldEscape_host (a : Ascii.ascii) : bool :=
  negb (is_letter a || is_digit a
        || one_of "!$&'()*+,;=:[]<>" a || (Ascii.nat_of_ascii a =? 34)%nat
        || one_of "-_.~" a).

(** Whether [unescape] succeeds: each percent sign starts an escape of two
    hexadecimal digits; in a host an escape may only stand for a byte above
    127 or be %25, and a byte that should be escaped is refused. *)
Fixpoint unescape_ok (mode : encoding) (s : list Ascii.ascii) : bool :=
  match s with
  | [] => true
  | c :: rest =>
    if (Ascii.nat_of_ascii c =? 37)%nat then
      match rest with
      | h1 :: h2 :: rest' =>
        ishex h1 && ishex h2 &&
        let is25 := (Ascii.nat_of_ascii h1 =? 50)%nat && (Ascii.nat_of_ascii h2 =? 53)%nat in
        match mode with
        | encodeHost => negb ((unhex h1 <? 8)%nat && negb is25)
        | encodeZone =>
          let v := (unhex h1 * 16 + unhex h2)%nat in
          negb (negb is25 && negb (v =? 32)%nat
                && shouldEscape_host (Ascii.ascii_of_nat v))
        | encodeOther => true
        end &&
        unescape_ok mode rest'
      | _ => false
      end
    else
      match mode with
      | encodeOther => true
      | _ => negb ((Ascii.nat_of_ascii c <? 128)%nat && shouldEscape_host c)
      end && unescape_ok mode rest
  end.

Definition validOptionalPort (port : list Ascii.ascii) : bool :=
  match port with
  | [] => true
  | c :: digits => (Ascii.nat_of_ascii c =? 58)%nat && forallb is_digit digits
  end.

Definition parseHost_ok (host : list Ascii.ascii) : bool :=
  if has_prefix (list_ascii_of_string "[") host then
    match cut_last "]"%char host with
    | None => false
    | Some (before, colonPort) =>
      validOptionalPort colonPort &&
      match cut_at (list_ascii_of_string "%25") before with
      | Some (host1, host2) =>
        unescape_ok encodeHost host1 && unescape_ok encodeZone host2 &&
        unescape_ok encodeHost ("]"%char :: colonPort)
      | None => unescape_ok encodeHost host
      end
    end
  else
    match cut_last ":"%char host with
    | Some (_, port) => forallb is_digit port
    | None => true
    end && unescape_ok encodeHost host.

Definition validUserinfo (s : list Ascii.ascii) : bool :=
  forallb (λ a, is_letter a || is_digit a || one_of "-._:~!$&'()*+,;=%@" a) s.

Definition parseAuthority_ok (authority : list Ascii.ascii) : bool :=
  match cut_last "@"%char authority with
  | None => parseHost_ok authority
  | Some (userinfo, host) =>
    parseHost_ok host && validUserinfo userinfo &&
    match cut ":"%char userinfo with
    | (username, Some password) =>
      unescape_ok encodeOther username && unescape_ok encodeOther password
    | (_, None) => unescape_ok encodeOther userinfo
    end
  end.

(** [getScheme]: [None] for a string that starts with a colon; otherwise
    whether there is a scheme, and what follows it. *)
Fixpoint getScheme_from (first : bool) (raw s : list Ascii.ascii)
  : option (bool * list Ascii.ascii) :=
  match s with
  | [] => Some (false, raw)
  | c :: rest =>
    if is_letter c then getScheme_from false raw rest
    else if is_digit c || one_of "+-." c then
      if first then Some (false, raw) else getScheme_from false raw rest
    else if (Ascii.nat_of_ascii c =? 58)%nat then
      if first then None else Some (true, rest)
    else Some (false, raw)
  end.

(** [parse], after its test for control bytes. *)
Definition parse_ok (u : list Ascii.ascii) : bool :=
  match u with
  | ["*"%char] => true
  | _ =>
    match getScheme_from true u u with
    | None => false
    | Some (has_scheme, rest) =>
      let rest := (cut "?"%char rest).1 in
      let rootless := negb (has_prefix (list_ascii_of_string "/") rest) in
      if rootless && has_scheme then true
      else if rootless && existsb (Ascii.eqb ":"%char) (cut "/"%char rest).1 then false
      else if (has_scheme || negb (has_prefix (list_ascii_of_string "///") rest))
              && has_prefix (list_ascii_of_string "//") rest
      then
        let (authority, path) := cut "/"%char (skipn 2 rest) in
        parseAuthority_ok authority &&
        match path with
        | Some p => unescape_ok encodeOther ("/"%char :: p)
        | None => true
        end
      else unescape_ok encodeOther rest
    end
  end.

(** [Parse]: the fragment is cut off first; control bytes are looked for in
    what precedes it. *)
Definition url_Parse (rawURL : string) : option string * option error :=
  let (u, frag) := cut "#"%char (list_ascii_of_string rawURL) in
  if existsb is_CTL u
  then (None, Some (errorString "net/url: invalid control character in URL"))
  else if parse_ok u &&
          match frag with
          | Some f => unescape_ok encodeOther f
          | None => true
          end
  then (Some rawURL, None)
  else (None, Some (errorString "net/url: invalid URL")).

(** The store as an SDK, for a process environment [environ]. *)
Definition sdk (environ : gmap string string) : Azblob :=
  Build_Azblob types
    ValidateObjectStoreConfigKeys (getStorageAccountKey environ)
    NewSharedKeyCredential url_Parse
    UploadStreamToBlockBlob GetProperties Download (λ r, r)
    ListBlobsFlatSegment Delete.
End Ref.

(** ** Runs of the listing

    [paging c m w pages oe w'] describes what the service answers to the
    successive page requests on container [c], from marker [m] in world [w]:
    the pages fetched with success, then either a marker that is done
    ([oe = None]) or a request that fails with [e] ([oe = Some e]). *)
Inductive paging {T : AzblobTypes} {sdk : Azblob} (c : ContainerURL)
  : Marker → World → list ListBlobsFlatSegmentResponse → option error → World → Prop :=
| paging_done m w :
    NotDone m = false →
    paging c m w [] None w
| paging_fail m w lb e w' :
    NotDone m = true →
    ListBlobsFlatSegment c m ListBlobsSegmentOptions_zero w = ((lb, Some e), w') →
    paging c m w [] (Some e) w'
| paging_next m w r w1 pages oe w2 :
    NotDone m = true →
    ListBlobsFlatSegment c m ListBlobsSegmentOptions_zero w = ((Some r, None), w1) →
    paging c (NextMarker r) w1 pages oe w2 →
    paging c m w (r :: pages) oe w2.

(** The names on the pages, in the order served. *)
Definition listed (pages : list ListBlobsFlatSegmentResponse) : list string :=
  concat (map (λ r, map Name (BlobItems (Segment r))) pages).

(** ** A concrete scenario

    The scenario of section 8 of the specification, on the reference store:
    account [acct1], its key in the environment variable [KEY], a container
    [backups].  One blob of the container has a snapshot. *)
Module Scenario.
#[local] Existing Instance Ref.types.

Definition environ : gmap string string := {[ "KEY" := "base64secret" ]}.

Definition sdk : Azblob := Ref.sdk environ.

Definition config : gmap string string :=
  <[ "storage-account" := "acct1" ]>
  (<[ "storage-account-key-env-var" := "KEY" ]>
  (<[ "subscription-id" := "sub1" ]>
  {[ "resource-group" := "rg1" ]})).

(** The same config without its resource group. *)
Definition config_no_group : gmap string string := delete "resource-group" config.

(** The same config with a key the adapter does not know. *)
Definition config_region : gmap string string := <[ "region" := "westeurope" ]> config.

(** The same config, the account name followed by a line feed. *)
Definition config_line_feed : gmap string string :=
  <[ "storage-account" := String.append "acct1" (String "010"%char EmptyString) ]> config.

(** The adapter before [Init] and as [Init] leaves it on [config]. *)
Definition fresh : ObjectStorePreview := ObjectStorePreview_zero.

Definition endpoint : ServiceURL :=
  NewServiceURL "https://acct1.blob.core.windows.net"
                (NewPipeline (Some ("acct1", "base64secret"))).

Definition ready : ObjectStorePreview :=
  {| pipeline := Some (NewPipeline (Some ("acct1", "base64secret")));
     service := Some endpoint |}.

Definition blob (c k : string) (data : list Byte.byte) (n : nat) : Ref.Blob :=
  {| Ref.blob_in := c; Ref.blob_key := k; Ref.content := data; Ref.snapshots := n |}.

Definition meta_json : Ref.Blob :=
  blob "backups" "b1/meta.json" [Byte.x7b; Byte.x7d] 1.

Definition store : Ref.Store :=
  {| Ref.blobs := [ meta_json;
                    blob "backups" "b1/a" [] 0;
                    blob "backups" "b2/x" [] 0;
                    blob "other" "b1/z" [] 0;
                    blob "backups" "xb1/" [] 0 ];
     Ref.budget := None |}.

(** The same store behind a transport that serves [n] requests. *)
Definition store_serving (n : nat) : Ref.Store :=
  {| Ref.blobs := Ref.blobs store; Ref.budget := Some n |}.

(** The two pages of the container [backups]. *)
Definition page1 : ListBlobsFlatSegmentResponse :=
  {| NextMarker := {| Val := Some "b2/x" |};
     Segment := {| BlobItems := [ {| Name := "b1/meta.json" |}; {| Name := "b1/a" |} ] |} |}.

Definition page2 : ListBlobsFlatSegmentResponse :=
  {| NextMarker := {| Val := Some EmptyString |};
     Segment := {| BlobItems := [ {| Name := "b2/x" |}; {| Name := "xb1/" |} ] |} |}.
End Scenario.

(** ** Results and their transformations *)

(** Apply [f] to the value a call returns; a panic and a lack of fuel are
    kept. *)
Definition outcome_map {S A B : Type} (f : A → B) (r : outcome S A) : outcome S B :=
  match r with
  | Returned a s => Returned (f a) s
  | Panicked p s => Panicked p s
  | OutOfFuel => OutOfFuel
  end.

(** Keep, of a listing result, the keys that start with [prefix]. *)
Definition keep_prefix (prefix : string) (r : list string * option error)
  : list string * option error :=
  (List.filter (String.prefix prefix) r.1, r.2).

(** ** Two more services

    Variations of the reference store, to run the adapter where the
    reference store does not go: a validator that checks the spelling of the
    config keys and not their presence, and a listing whose marker is never
    done. *)
Module Alt.
#[local] Existing Instance Ref.types.

(** Every key of the config is one of [keys], bucket, prefix or caCert. *)
Definition spelling_only (config : gmap string string) (keys : list string)
  : option error :=
  if forallb (λ k, bool_decide (k ∈ (keys ++ ["bucket"; "prefix"; "caCert"])%list))
             (map fst (map_to_list config))
  then None else Some (errorString "config has invalid keys").

Definition sdk_spelling (environ : gmap string string) : Azblob :=
  Build_Azblob Ref.types
    spelling_only (Ref.getStorageAccountKey environ)
    Ref.NewSharedKeyCredential Ref.url_Parse
    Ref.UploadStreamToBlockBlob Ref.GetProperties Ref.Download (λ r, r)
    Ref.ListBlobsFlatSegment Ref.Delete.

(** Every page request is answered with the same one-name page and the same
    marker. *)
Definition same_page : ListBlobsFlatSegmentResponse :=
  {| NextMarker := {| Val := Some "again" |};
     Segment := {| BlobItems := [ {| Name := "b1/a" |} ] |} |}.

Definition sdk_same_page (environ : gmap string string) : Azblob :=
  Build_Azblob Ref.types
    Ref.ValidateObjectStoreConfigKeys (Ref.getStorageAccountKey environ)
    Ref.NewSharedKeyCredential Ref.url_Parse
    Ref.UploadStreamToBlockBlob Ref.GetProperties Ref.Download (λ r, r)
    (λ _ _ _ w, ((Some same_page, None), w)) Ref.Delete.

(** The config of the scenario without its storage account. *)
Definition config_no_account : gmap string string :=
  delete "storage-account" Scenario.config.
End Alt.

(** ** Facts about strings *)

Lemma strings_Index_zero (s p : string) :
  strings_Index s p = 0%Z ↔ String.prefix p s = true.
Proof.
  unfold strings_Index. destruct s as [|b s'].
  - destruct p; cbn; split; intros; first [reflexivity | discriminate].
  - cbn [index]. destruct (String.prefix p (String b s')).
    + split; auto.
    + destruct (index 0 p s'); split; intros; try discriminate; lia.
Qed.

Lemma prefix_app (p k : string) :
  String.prefix p k = true ↔ ∃ rest, k = (p ++ rest)%string.
Proof.
  revert k. induction p as [|a p IH]; intros k.
  - destruct k; simpl; split; eauto.
  - destruct k as [|b k]; simpl.
    + split; [discriminate | intros [rest Hk]; discriminate].
    + destruct (Ascii.ascii_dec a b) as [->|Hne].
      * rewrite IH. split; intros [rest Hk]; exists rest.
        -- now rewrite Hk.
        -- change (String b k = String b (p ++ rest)%string) in Hk. congruence.
      * split; [discriminate | intros [rest Hk]].
        change (String b k = String a (p ++ rest)%string) in Hk. congruence.
Qed.

Lemma prefix_empty (k : string) : String.prefix EmptyString k = true.
Proof. destruct k; reflexivity. Qed.

Section Listing.
Context {T : AzblobTypes} {sdk : Azblob}.

Lemma name_matches_prefix (prefix name : string) :
  name_matches prefix name = String.prefix prefix name.
Proof.
  unfold name_matches. destruct (String.eqb_spec prefix EmptyString) as [->|_].
  - now rewrite prefix_empty.
  - simpl. destruct (String.prefix prefix name) eqn:E.
    + apply Z.eqb_eq. now apply strings_Index_zero.
    + apply Z.eqb_neq. rewrite strings_Index_zero. congruence.
Qed.

Lemma append_matching_filter (prefix : string) (items : list BlobItem)
    (objects : list string) :
  append_matching prefix items objects =
  (objects ++ List.filter (String.prefix prefix) (map Name items))%list.
Proof.
  unfold append_matching. revert objects.
  induction items as [|i items IH]; intros objects; simpl.
  - now rewrite app_nil_r.
  - rewrite IH, name_matches_prefix.
    destruct (String.prefix prefix (Name i)); [|reflexivity].
    now rewrite <- app_assoc.
Qed.

Lemma listed_cons r pages :
  listed (r :: pages) = (map Name (BlobItems (Segment r)) ++ listed pages)%list.
Proof. reflexivity. Qed.

(** The loop follows the run of the listing, given one unit of fuel per
    request. *)
Lemma ListObjects_loop_paging c prefix m w pages oe w' :
  paging c m w pages oe w' →
  ∀ fuel objects,
    (List.length pages + match oe with Some _ => 1 | None => 0 end ≤ fuel)%nat →
    ListObjects_loop fuel c prefix m objects w =
    Returned
      (match oe with
       | None => ((objects ++ List.filter (String.prefix prefix) (listed pages))%list, None)
       | Some e => ([], Some e)
       end) w'.
Proof.
  induction 1 as [m w Hm | m w lb e w' Hm Hreq | m w r w1 pages oe w2 Hm Hreq _ IH];
    intros fuel objects Hfuel.
  - destruct fuel; simpl; rewrite Hm; unfold ret; now rewrite app_nil_r.
  - destruct fuel as [|fuel]; [simpl in Hfuel; lia|].
    simpl. rewrite Hm. unfold bind, call. now rewrite Hreq.
  - destruct fuel as [|fuel]; [simpl in Hfuel; lia|].
    simpl. rewrite Hm. unfold bind, call. rewrite Hreq. simpl.
    rewrite IH by (simpl in Hfuel; lia).
    rewrite append_matching_filter, listed_cons, List.filter_app.
    destruct oe; [reflexivity|]. now rewrite app_assoc.
Qed.
End Listing.

(** ** The operations of the adapter *)

Section Operations.
Context {T : AzblobTypes} {sdk : Azblob}.

Lemma ObjectExists_run o s bucket key w :
  service o = Some s →
  ObjectExists o bucket key w =
  let (probe, w') := GetProperties (NewBlobURL (NewContainerURL s bucket) key) w in
  Returned
    (match probe with
     | None => (true, None)
     | Some (StorageError resp) =>
       if (StatusCode resp =? 404)%Z then (false, None) else (false, probe)
     | Some (errorString _) => (false, probe)
     end) w'.
Proof.
  intros Hs. unfold ObjectExists, bind, call, deref, ret. rewrite Hs.
  destruct (GetProperties _ w) as [[[resp|msg]|] w']; simpl; try reflexivity.
  now destruct (StatusCode resp =? 404)%Z.
Qed.

(** C1.  On an initialised adapter, [ObjectExists] returns what the metadata
    probe decides: [(true, nil)] when the probe succeeds; [(false, nil)]
    exactly when the probe fails with a storage error of status 404; and for
    any other failure of the probe, that error itself (with [false]). *)
Theorem ObjectExists_probe o s bucket key w probe w' :
  service o = Some s →
  GetProperties (NewBlobURL (NewContainerURL s bucket) key) w = (probe, w') →
  ∃ found err,
    ObjectExists o bucket key w = Returned (found, err) w' ∧
    (probe = None → found = true ∧ err = None) ∧
    (found = false ∧ err = None ↔ ∃ e, probe = Some e ∧ not_found e) ∧
    (∀ e, probe = Some e → ¬ not_found e → found = false ∧ err = Some e).
Proof.
  intros Hs Hprobe. rewrite (ObjectExists_run _ _ _ _ _ Hs), Hprobe.
  destruct probe as [[resp|msg]|].
  - destruct (StatusCode resp =? 404)%Z eqn:E.
    + apply Z.eqb_eq in E. exists false, None.
      split; [reflexivity|]. split; [discriminate|]. split; [split|].
      * intros _. exists (StorageError resp). split; [reflexivity|].
        now exists resp.
      * intros _. now split.
      * intros e [= <-] Hnf. destruct Hnf. now exists resp.
    + apply Z.eqb_neq in E. exists false, (Some (StorageError resp)).
      split; [reflexivity|]. split; [discriminate|]. split; [split|].
      * intros [_ [=]].
      * intros (e & [= <-] & resp' & [= <-] & H404). contradiction.
      * intros e [= <-] _. now split.
  - exists false, (Some (errorString msg)).
    split; [reflexivity|]. split; [discriminate|]. split; [split|].
    + intros [_ [=]].
    + intros (e & [= <-] & resp' & [=] & _).
    + intros e [= <-] _. now split.
  - exists true, None.
    split; [reflexivity|]. split; [now split|]. split; [split|].
    + intros [[=] _].
    + intros (e & [=] & _).
    + intros e [=].
Qed.

(** C10.  The two components of the result of [ObjectExists] are linked, on
    every adapter and in every world: [true] comes with a nil error only, a
    non-nil error comes with [false], and [(false, nil)] is returned only
    when the probe failed with a storage error of status 404.  The call ends
    without a result only on an adapter whose service handle is nil. *)
Theorem ObjectExists_components_linked o bucket key w :
  match ObjectExists o bucket key w with
  | Returned (found, err) _ =>
    (found = true → err = None) ∧
    (err ≠ None → found = false) ∧
    (found = false ∧ err = None →
     ∃ s e, service o = Some s ∧
            (GetProperties (NewBlobURL (NewContainerURL s bucket) key) w).1 = Some e ∧
            not_found e)
  | Panicked _ _ => service o = None
  | OutOfFuel => False
  end.
Proof.
  destruct (service o) as [s|] eqn:Hs.
  - rewrite (ObjectExists_run _ _ _ _ _ Hs).
    destruct (GetProperties _ w) as [[[resp|msg]|] w'] eqn:Hprobe; simpl.
    + destruct (StatusCode resp =? 404)%Z eqn:E.
      * apply Z.eqb_eq in E.
        split; [discriminate|]. split; [reflexivity|].
        intros _. exists s, (StorageError resp).
        split; [reflexivity|]. split; [now rewrite Hprobe|]. now exists resp.
      * split; [discriminate|]. split; [reflexivity|]. intros [_ [=]].
    + split; [discriminate|]. split; [reflexivity|]. intros [_ [=]].
    + split; [reflexivity|]. split; [congruence|]. intros [[=] _].
  - unfold ObjectExists, bind, deref, throw. now rewrite Hs.
Qed.

(** C6.  [ListCommonPrefixes] returns an empty sequence and a nil error, for
    every adapter, every argument and every state of the service, which it
    leaves as it is. *)
Theorem ListCommonPrefixes_empty (o : ObjectStorePreview)
    (bucket prefix delimiter : string) (w : World) :
  ListCommonPrefixes o bucket prefix delimiter w = Returned ([], None) w.
Proof. reflexivity. Qed.

(** C7.  [CreateSignedURL] returns the empty string and the fixed error
    "Not Implemented", for every adapter, every argument and every state of
    the service. *)
Theorem CreateSignedURL_not_implemented (o : ObjectStorePreview)
    (bucket key : string) (ttl : Z) (w : World) :
  CreateSignedURL o bucket key ttl w =
  Returned (EmptyString, Some (errors_New "Not Implemented")) w.
Proof. reflexivity. Qed.
(** [DeleteObject] is one delete request with the snapshots option
    [DeleteSnapshotsOptionNone]. *)
Lemma DeleteObject_run o s bucket key w err w' :
  service o = Some s →
  Delete (NewBlobURL (NewContainerURL s bucket) key) DeleteSnapshotsOptionNone w
    = (err, w') →
  DeleteObject o bucket key w = Returned err w'.
Proof.
  intros Hs Hdel. unfold DeleteObject, bind, call, deref, ret. rewrite Hs.
  simpl. unfold NewBlockBlobURL. simpl. rewrite Hdel. now destruct err.
Qed.

(** C4.  On an initialised adapter, when the service answers the successive
    page requests with [pages] and then a marker that is done, [ListObjects]
    (with a unit of fuel per page) returns, with a nil error, the names
    listed on those pages that start with [prefix], in the order served: a
    key is returned exactly when it is listed and is [prefix] followed by
    some rest; with the empty prefix every listed name is returned; when no
    listed name starts with [prefix] the result is empty. *)
Theorem ListObjects_all_pages o s bucket prefix w pages w' fuel :
  service o = Some s →
  paging (NewContainerURL s bucket) {| Val := None |} w pages None w' →
  (List.length pages ≤ fuel)%nat →
  ∃ keys,
    ListObjects fuel o bucket prefix w = Returned (keys, None) w' ∧
    keys = List.filter (String.prefix prefix) (listed pages) ∧
    (∀ k, In k keys ↔ In k (listed pages) ∧ ∃ rest, k = String.append prefix rest) ∧
    (prefix = EmptyString → keys = listed pages) ∧
    ((∀ k, In k (listed pages) → String.prefix prefix k = false) → keys = []).
Proof.
  intros Hs Hrun Hfuel. eexists. split; [|split; [reflexivity|]].
  - unfold ListObjects, bind, deref, ret. rewrite Hs.
    rewrite (ListObjects_loop_paging _ _ _ _ _ _ _ Hrun) by (simpl; lia).
    reflexivity.
  - split; [|split].
    + intros k. rewrite List.filter_In. now rewrite prefix_app.
    + intros ->. apply List.forallb_filter_id, List.forallb_forall.
      intros k _. apply prefix_empty.
    + intros Hnone. induction (listed pages) as [|k ks IH]; [reflexivity|].
      simpl. rewrite Hnone by now left.
      apply IH. intros k' Hk'. apply Hnone. now right.
Qed.

(** C5.  On an initialised adapter, when a page request fails with [e], after
    any number of pages fetched with success, [ListObjects] returns a nil
    sequence together with [e]: the keys taken from the earlier pages are not
    returned. *)
Theorem ListObjects_page_failure o s bucket prefix w pages e w' fuel :
  service o = Some s →
  paging (NewContainerURL s bucket) {| Val := None |} w pages (Some e) w' →
  (List.length pages < fuel)%nat →
  ListObjects fuel o bucket prefix w = Returned ([], Some e) w'.
Proof.
  intros Hs Hrun Hfuel. unfold ListObjects, bind, deref, ret. rewrite Hs.
  now rewrite (ListObjects_loop_paging _ _ _ _ _ _ _ Hrun) by (simpl; lia).
Qed.

(** C8.  For every adapter and config: when [Init] returns an error the
    adapter is unchanged (so an uninitialised adapter stays uninitialised);
    when it returns nil both the pipeline and the service handle are set and
    the adapter is ready.  An error of the validator, of the key resolver or
    of the credential constructor is returned as it is; and when the three
    succeed and [url.Parse] returns a URL, [Init] does return nil, the
    adapter holding a pipeline over the credential and a service handle on
    that URL over the same pipeline. *)
Theorem Init_state o config :
  match Init o config with
  | Returned (Some _) o' => o' = o ∧ (Uninitialized o → Uninitialized o')
  | Returned None o' => Ready o' ∧ is_Some (pipeline o') ∧ is_Some (service o')
  | Panicked _ o' => o' = o
  | OutOfFuel => False
  end ∧
  (∀ e,
     ValidateObjectStoreConfigKeys config
       [resourceGroupConfigKey; storageAccountConfigKey;
        subscriptionIDConfigKey; storageAccountKeyEnvVarConfigKey] = Some e →
     Init o config = Returned (Some e) o) ∧
  (∀ key env e,
     ValidateObjectStoreConfigKeys config
       [resourceGroupConfigKey; storageAccountConfigKey;
        subscriptionIDConfigKey; storageAccountKeyEnvVarConfigKey] = None →
     getStorageAccountKey config = (key, env, Some e) →
     Init o config = Returned (Some e) o) ∧
  (∀ key env cred e,
     ValidateObjectStoreConfigKeys config
       [resourceGroupConfigKey; storageAccountConfigKey;
        subscriptionIDConfigKey; storageAccountKeyEnvVarConfigKey] = None →
     getStorageAccountKey config = (key, env, None) →
     NewSharedKeyCredential (map_index config storageAccountConfigKey) key
       = (cred, Some e) →
     Init o config = Returned (Some e) o) ∧
  (∀ key env cred u perr,
     ValidateObjectStoreConfigKeys config
       [resourceGroupConfigKey; storageAccountConfigKey;
        subscriptionIDConfigKey; storageAccountKeyEnvVarConfigKey] = None →
     getStorageAccountKey config = (key, env, None) →
     NewSharedKeyCredential (map_index config storageAccountConfigKey) key
       = (cred, None) →
     url_Parse (blob_url_suffix (map_index config storageAccountConfigKey))
       = (Some u, perr) →
     Init o config =
     Returned None {| pipeline := Some (NewPipeline cred);
                      service := Some (NewServiceURL u (NewPipeline cred)) |} ∧
     Ready {| pipeline := Some (NewPipeline cred);
              service := Some (NewServiceURL u (NewPipeline cred)) |}).
Proof.
  unfold Init. split; [|split; [|split; [|split]]].
  - destruct (ValidateObjectStoreConfigKeys _ _); [now split|].
    destruct (getStorageAccountKey config) as [[key env] [e|]]; [now split|].
    destruct (NewSharedKeyCredential _ key) as [cred [e|]]; [now split|].
    destruct (url_Parse _) as [[u|] perr]; [|reflexivity].
    unfold Ready; simpl. repeat split; eauto.
  - now intros e ->.
  - now intros key env e -> ->.
  - now intros key env cred e -> -> ->.
  - intros key env cred u perr -> -> -> ->. split; [reflexivity|].
    unfold Ready; simpl. split; eauto.
Qed.

(** C2, what the code does.  When the validator, the key resolver and the
    credential constructor succeed and [url.Parse] rejects the endpoint built
    from the storage account (it returns a nil URL and its error), [Init]
    does not return that error: it dereferences the nil URL and panics, the
    adapter unchanged. *)
Theorem Init_unparsable_endpoint o config key env cred perr :
  ValidateObjectStoreConfigKeys config
    [resourceGroupConfigKey; storageAccountConfigKey;
     subscriptionIDConfigKey; storageAccountKeyEnvVarConfigKey] = None →
  getStorageAccountKey config = (key, env, None) →
  NewSharedKeyCredential (map_index config storageAccountConfigKey) key
    = (cred, None) →
  url_Parse (blob_url_suffix (map_index config storageAccountConfigKey))
    = (None, Some perr) →
  Init o config = Panicked NilPointerDereference o.
Proof. unfold Init. now intros -> -> -> ->. Qed.

(** C9, as the code has it.  On an adapter whose service handle is nil, each
    of [PutObject], [ObjectExists], [GetObject], [ListObjects] and
    [DeleteObject] dereferences the handle and panics; no request reaches the
    service, whose state is the one the call started in, and neither a result
    nor an error is returned. *)
Theorem uninitialized_operations_panic o bucket key prefix body fuel w :
  Uninitialized o →
  PutObject o bucket key body w = Panicked NilPointerDereference w ∧
  ObjectExists o bucket key w = Panicked NilPointerDereference w ∧
  GetObject o bucket key w = Panicked NilPointerDereference w ∧
  ListObjects fuel o bucket prefix w = Panicked NilPointerDereference w ∧
  DeleteObject o bucket key w = Panicked NilPointerDereference w.
Proof.
  intros [_ Hs].
  unfold PutObject, ObjectExists, GetObject, ListObjects, DeleteObject,
    bind, deref, throw.
  rewrite Hs. repeat split.
Qed.
End Operations.

(** ** Runs on the scenario *)

Section Runs.
#[local] Existing Instance Ref.types.
#[local] Existing Instance Scenario.sdk.
Import Scenario.

(** The container [backups] is listed in two pages. *)
Lemma backups_paging :
  paging (NewContainerURL endpoint "backups") {| Val := None |} store
         [page1; page2] None store.
Proof.
  eapply paging_next; [reflexivity | reflexivity |].
  eapply paging_next; [reflexivity | reflexivity |].
  now apply paging_done.
Qed.

(** With a transport that serves one request, the second page is not. *)
Lemma backups_paging_cut :
  paging (NewContainerURL endpoint "backups") {| Val := None |} (store_serving 1)
         [page1] (Some Ref.transport_error) (store_serving 0).
Proof.
  eapply paging_next; [reflexivity | reflexivity |].
  eapply paging_fail; reflexivity.
Qed.

(** Witness of C1: a key that is not in the container; the probe answers 404
    and the result is [(false, nil)]. *)
Lemma ObjectExists_probe_witness :
  service ready = Some endpoint ∧
  GetProperties (NewBlobURL (NewContainerURL endpoint "backups") "b1/none") store
    = (Some (Ref.status 404), store) ∧
  ObjectExists ready "backups" "b1/none" store = Returned (false, None) store.
Proof.
  assert (Hprobe :
    GetProperties (NewBlobURL (NewContainerURL endpoint "backups") "b1/none") store
      = (Some (Ref.status 404), store)) by reflexivity.
  split; [reflexivity|]. split; [exact Hprobe|].
  destruct (ObjectExists_probe ready endpoint "backups" "b1/none" store
              (Some (Ref.status 404)) store eq_refl Hprobe)
    as (found & err & Hrun & _ & [_ Hnf] & _).
  rewrite Hrun.
  destruct Hnf as [-> ->]; [|reflexivity].
  exists (Ref.status 404). split; [reflexivity|].
  eexists. split; reflexivity.
Defined.

(** Counterexample to C3: [b1/meta.json] has a snapshot; [DeleteObject]
    returns the 409 of the service, and the blob and its snapshot are still
    in the store. *)
Lemma DeleteObject_snapshot_counterexample :
  Ref.find_blob "backups" "b1/meta.json" (Ref.blobs store) = Some meta_json ∧
  Ref.snapshots meta_json = 1%nat ∧
  ∃ w', DeleteObject ready "backups" "b1/meta.json" store
          = Returned (Some (Ref.status 409)) w' ∧
        Ref.find_blob "backups" "b1/meta.json" (Ref.blobs w') = Some meta_json.
Proof.
  split; [reflexivity|]. split; [reflexivity|].
  exists store. split; reflexivity.
Qed.

(** Witness of C4: the keys of [backups] that start with [b1/], over two
    pages; [xb1/] holds [b1/] but does not start with it. *)
Lemma ListObjects_all_pages_witness :
  ListObjects 2 ready "backups" "b1/" store
  = Returned (["b1/meta.json"; "b1/a"]%string, None) store.
Proof.
  destruct (ListObjects_all_pages ready endpoint "backups" "b1/" store
              [page1; page2] store 2 eq_refl backups_paging (le_n 2))
    as (keys & Hrun & -> & _).
  exact Hrun.
Defined.

(** Witness of C5: the second page request fails; nothing of the first page
    is returned. *)
Lemma ListObjects_page_failure_witness :
  ListObjects 2 ready "backups" "b1/" (store_serving 1)
  = Returned ([], Some Ref.transport_error) (store_serving 0).
Proof.
  apply (ListObjects_page_failure ready endpoint "backups" "b1/" (store_serving 1)
           [page1] Ref.transport_error (store_serving 0) 2 eq_refl
           backups_paging_cut).
  simpl. lia.
Defined.

(** Witness of C2: the storage account ends in a line feed; [url.Parse]
    rejects the endpoint and [Init] panics. *)
Lemma Init_unparsable_endpoint_witness :
  url_Parse (blob_url_suffix (map_index config_line_feed storageAccountConfigKey))
    = (None, Some (errorString "net/url: invalid control character in URL")) ∧
  Init fresh config_line_feed = Panicked NilPointerDereference fresh.
Proof.
  split; [reflexivity|].
  eapply (Init_unparsable_endpoint fresh config_line_feed); reflexivity.
Defined.

(** Witness of C9 as amended: the adapter before [Init]. *)
Lemma uninitialized_operations_panic_witness :
  Uninitialized fresh ∧
  GetObject fresh "backups" "b1/meta.json" store = Panicked NilPointerDereference store.
Proof.
  split; [now split|].
  apply (uninitialized_operations_panic fresh "backups" "b1/meta.json" EmptyString
           [] 0 store (conj eq_refl eq_refl)).
Defined.

(** Counterexample to C9: before [Init], [PutObject] does not return an
    error; it dereferences the nil service handle. *)
Lemma PutObject_uninitialized_counterexample :
  Uninitialized fresh ∧
  PutObject fresh "backups" "b1/meta.json" [Byte.x7b; Byte.x7d] store
    = Panicked NilPointerDereference store ∧
  ¬ ∃ err w', PutObject fresh "backups" "b1/meta.json" [Byte.x7b; Byte.x7d] store
                = Returned (Some err) w'.
Proof.
  split; [now split|]. split; [reflexivity|].
  intros (err & w' & Hrun). discriminate Hrun.
Qed.

(** Witness of C8: [Init] on the config of the scenario returns nil and
    leaves the adapter ready, with the handles of [ready]. *)
Lemma Init_state_witness :
  Init fresh config = Returned None ready ∧ Ready ready.
Proof.
  destruct (Init_state fresh config) as (_ & _ & _ & _ & Hnil).
  apply (Hnil "base64secret" (Some ()) (Some ("acct1", "base64secret"))
              "https://acct1.blob.core.windows.net" None); reflexivity.
Defined.

(** The scenario of the specification: [Init] on the config leaves the
    adapter ready, also without the resource group, whose presence the
    validator does not test; with a key the validator does not know it
    returns an error and the adapter is as before. *)
Lemma Init_scenario :
  Init fresh config = Returned None ready ∧
  Init fresh config_no_group = Returned None ready ∧
  ∃ e, Init fresh config_region = Returned (Some e) fresh.
Proof. split; [reflexivity|]. split; [reflexivity|]. eexists. reflexivity. Qed.
End Runs.

(** ** More on the adapter *)

Lemma append_cancel_l (p a b : string) :
  String.append p a = String.append p b → a = b.
Proof.
  induction p as [|c p IH]; intros Heq; [exact Heq|].
  change (String c (String.append p a) = String c (String.append p b)) in Heq.
  apply IH. congruence.
Qed.

Lemma append_length (a b : string) :
  String.length (String.append a b) = (String.length a + String.length b)%nat.
Proof.
  induction a as [|c a IH]; [reflexivity|].
  change (S (String.length (String.append a b))
          = S (String.length a + String.length b)). now rewrite IH.
Qed.

Lemma append_cancel_r (s a b : string) :
  String.append a s = String.append b s → a = b.
Proof.
  revert b. induction a as [|c a IH]; intros [|d b] Heq.
  - reflexivity.
  - apply (f_equal String.length) in Heq. rewrite !append_length in Heq.
    simpl in Heq. lia.
  - apply (f_equal String.length) in Heq. rewrite !append_length in Heq.
    simpl in Heq. lia.
  - change (String c (String.append a s) = String d (String.append b s)) in Heq.
    injection Heq as -> Heq. f_equal. now apply IH.
Qed.

Section Further.
Context {T : AzblobTypes} {sdk : Azblob}.

Local Abbreviation config_keys :=
  [resourceGroupConfigKey; storageAccountConfigKey;
   subscriptionIDConfigKey; storageAccountKeyEnvVarConfigKey].

Lemma ListObjects_loop_prefix fuel c prefix :
  ∀ m acc w,
    ListObjects_loop fuel c prefix m (List.filter (String.prefix prefix) acc) w =
    outcome_map (keep_prefix prefix) (ListObjects_loop fuel c EmptyString m acc w).
Proof.
  induction fuel as [|fuel IH]; intros m acc w; simpl;
    destruct (NotDone m); try reflexivity.
  unfold bind, call.
  destruct (ListBlobsFlatSegment c m ListBlobsSegmentOptions_zero w)
    as [[[r|] [e|]] w1]; try reflexivity.
  simpl. rewrite <- IH. f_equal.
  rewrite !append_matching_filter, List.filter_app. f_equal.
  f_equal. symmetry. apply List.forallb_filter_id, List.forallb_forall.
  intros k _. apply prefix_empty.
Qed.

Lemma ListObjects_loop_never_done c prefix :
  (∀ m w, ∃ r w',
      ListBlobsFlatSegment c m ListBlobsSegmentOptions_zero w = ((Some r, None), w') ∧
      NotDone (NextMarker r) = true) →
  ∀ fuel m acc w,
    NotDone m = true → ListObjects_loop fuel c prefix m acc w = OutOfFuel.
Proof.
  intros Hnever. induction fuel as [|fuel IH]; intros m acc w Hm; simpl;
    rewrite Hm; [reflexivity|].
  destruct (Hnever m w) as (r & w' & Hreq & Hnext).
  unfold bind, call. rewrite Hreq. simpl. now apply IH.
Qed.

(** X1.  [Init] returns nil exactly when the validator, the key resolver and
    the credential constructor report no error and [url.Parse] returns a URL,
    whatever error [url.Parse] reports beside it; the adapter then holds a
    pipeline over the credential and a service handle on that URL over the
    same pipeline. *)
Theorem Init_returns_nil_iff o config o' :
  Init o config = Returned None o' ↔
  ∃ key env cred u perr,
    ValidateObjectStoreConfigKeys config config_keys = None ∧
    getStorageAccountKey config = (key, env, None) ∧
    NewSharedKeyCredential (map_index config storageAccountConfigKey) key
      = (cred, None) ∧
    url_Parse (blob_url_suffix (map_index config storageAccountConfigKey))
      = (Some u, perr) ∧
    o' = {| pipeline := Some (NewPipeline cred);
            service := Some (NewServiceURL u (NewPipeline cred)) |}.
Proof.
  unfold Init. split.
  - destruct (ValidateObjectStoreConfigKeys _ _) eqn:Hv; [discriminate|].
    destruct (getStorageAccountKey config) as [[key env] [e|]] eqn:Hk; [discriminate|].
    destruct (NewSharedKeyCredential _ key) as [cred [e|]] eqn:Hc; [discriminate|].
    destruct (url_Parse _) as [[u|] perr] eqn:Hu; [|discriminate].
    intros [= <-]. exists key, env, cred, u, perr. auto.
  - now intros (key & env & cred & u & perr & -> & -> & -> & -> & ->).
Qed.

(** X2.  An error returned by [Init] is the error of the validator, of the
    key resolver or of the credential constructor, the earlier steps having
    succeeded; no other error is returned, the error of [url.Parse] is not. *)
Theorem Init_error_origin o config e o' :
  Init o config = Returned (Some e) o' →
  ValidateObjectStoreConfigKeys config config_keys = Some e ∨
  (ValidateObjectStoreConfigKeys config config_keys = None ∧
   ∃ key env, getStorageAccountKey config = (key, env, Some e)) ∨
  (ValidateObjectStoreConfigKeys config config_keys = None ∧
   ∃ key env cred,
     getStorageAccountKey config = (key, env, None) ∧
     NewSharedKeyCredential (map_index config storageAccountConfigKey) key
       = (cred, Some e)).
Proof.
  unfold Init. intros Hinit.
  destruct (ValidateObjectStoreConfigKeys _ _) as [ev|].
  { injection Hinit as -> _. now left. }
  right.
  destruct (getStorageAccountKey config) as [[key env] [ek|]].
  { injection Hinit as -> _. left. eauto. }
  destruct (NewSharedKeyCredential _ key) as [cred [ec|]] eqn:Hc.
  { injection Hinit as -> _. right. split; [reflexivity|]. now exists key, env, cred. }
  destruct (url_Parse _) as [[u|] perr]; discriminate.
Qed.

(** X3.  [Init] does not read the adapter it is called on: when it returns
    nil on a config, it returns nil with the same handles from any other
    state of the adapter, so a second [Init] on the same config leaves the
    adapter as the first did. *)
Theorem Init_forgets_previous_state o config o' :
  Init o config = Returned None o' →
  ∀ o2, Init o2 config = Returned None o'.
Proof.
  unfold Init.
  destruct (ValidateObjectStoreConfigKeys _ _); [discriminate|].
  destruct (getStorageAccountKey config) as [[key env] [e|]]; [discriminate|].
  destruct (NewSharedKeyCredential _ key) as [cred [e|]]; [discriminate|].
  destruct (url_Parse _) as [[u|] perr]; [|discriminate].
  now intros [= <-] o2.
Qed.

(** X4.  [Init] itself does not test that the config has a storage account:
    when the key is absent and the validator and the key resolver accept the
    config, the credential is made for the empty account name and the
    endpoint is [https://.blob.core.windows.net]; if [url.Parse] returns a
    URL for it, [Init] returns nil with a service handle on that URL. *)
Theorem Init_missing_account o config key env cred u perr :
  config !! storageAccountConfigKey = None →
  ValidateObjectStoreConfigKeys config config_keys = None →
  getStorageAccountKey config = (key, env, None) →
  NewSharedKeyCredential EmptyString key = (cred, None) →
  url_Parse "https://.blob.core.windows.net" = (Some u, perr) →
  Init o config =
  Returned None {| pipeline := Some (NewPipeline cred);
                   service := Some (NewServiceURL u (NewPipeline cred)) |}.
Proof.
  intros Hacc Hv Hk Hc Hu. unfold Init, map_index. rewrite Hacc, Hv, Hk. simpl.
  rewrite Hc. change (blob_url_suffix EmptyString) with "https://.blob.core.windows.net".
  now rewrite Hu.
Qed.

(** X6.  The operations read the service handle of the adapter and nothing
    else: two adapters with the same service handle, whatever their pipeline
    fields, behave alike in every operation. *)
Theorem operations_read_service_only o1 o2 :
  service o1 = service o2 →
  (∀ bucket key body w, PutObject o1 bucket key body w = PutObject o2 bucket key body w) ∧
  (∀ bucket key w, ObjectExists o1 bucket key w = ObjectExists o2 bucket key w) ∧
  (∀ bucket key w, GetObject o1 bucket key w = GetObject o2 bucket key w) ∧
  (∀ fuel bucket prefix w,
     ListObjects fuel o1 bucket prefix w = ListObjects fuel o2 bucket prefix w) ∧
  (∀ bucket key w, DeleteObject o1 bucket key w = DeleteObject o2 bucket key w).
Proof.
  intros Hs.
  unfold PutObject, ObjectExists, GetObject, ListObjects, DeleteObject.
  rewrite Hs. repeat split.
Qed.

(** [PutObject] is one upload to the block blob. *)
Lemma PutObject_run o s bucket key body w err w' :
  service o = Some s →
  UploadStreamToBlockBlob body (NewBlockBlobURL (NewContainerURL s bucket) key) w
    = (err, w') →
  PutObject o bucket key body w = Returned err w'.
Proof.
  intros Hs Hup. unfold PutObject, bind, call, deref, ret. rewrite Hs.
  simpl. rewrite Hup. now destruct err.
Qed.

(** [GetObject] is one download from offset 0 to the end of the blob. *)
Lemma GetObject_run o s bucket key w response err w' :
  service o = Some s →
  Download (NewBlobURL (NewContainerURL s bucket) key) 0 CountToEnd w
    = ((response, err), w') →
  GetObject o bucket key w =
  match err, response with
  | Some _, _ => Returned (None, err) w'
  | None, Some r => Returned (Some (Body r), None) w'
  | None, None => Panicked NilPointerDereference w'
  end.
Proof.
  intros Hs Hdl. unfold GetObject, bind, call, deref, ret, throw. rewrite Hs.
  simpl. rewrite Hdl. now destruct err, response.
Qed.

(** X9.  The prefix is applied by the adapter, not by the service: for every
    adapter, fuel and state of the service, [ListObjects] with a prefix ends
    as [ListObjects] with the empty prefix does, with the same error and the
    same state of the service, its keys being those of the full listing that
    start with the prefix. *)
Theorem ListObjects_prefix_filters_listing fuel o bucket prefix w :
  ListObjects fuel o bucket prefix w =
  outcome_map (keep_prefix prefix) (ListObjects fuel o bucket EmptyString w).
Proof.
  unfold ListObjects, bind, deref, ret, throw.
  destruct (service o) as [s|]; [|reflexivity].
  apply (ListObjects_loop_prefix fuel _ prefix {| Val := None |} []).
Qed.

(** X11.  The paging loop has no bound of its own: on a service that answers
    every page request of the container with a page whose marker is not
    done, [ListObjects] on an initialised adapter does not end, whatever the
    fuel. *)
Theorem ListObjects_marker_never_done o s bucket prefix :
  service o = Some s →
  (∀ m w, ∃ r w',
      ListBlobsFlatSegment (NewContainerURL s bucket) m ListBlobsSegmentOptions_zero w
        = ((Some r, None), w') ∧
      NotDone (NextMarker r) = true) →
  ∀ fuel w, ListObjects fuel o bucket prefix w = OutOfFuel.
Proof.
  intros Hs Hnever fuel w. unfold ListObjects, bind, deref, ret. rewrite Hs.
  now apply ListObjects_loop_never_done.
Qed.

(** X12.  The endpoint determines the storage account: two account names
    with the same endpoint string are equal. *)
Theorem blob_url_suffix_injective (a b : string) :
  blob_url_suffix a = blob_url_suffix b → a = b.
Proof.
  unfold blob_url_suffix. intros Heq.
  apply append_cancel_l in Heq. now apply append_cancel_r in Heq.
Qed.
End Further.

(** ** More runs on the scenario *)

Section Further_runs.
#[local] Existing Instance Ref.types.
Import Scenario.

Local Abbreviation config_keys :=
  [resourceGroupConfigKey; storageAccountConfigKey;
   subscriptionIDConfigKey; storageAccountKeyEnvVarConfigKey].

(** Witness of X2: the validator refuses the key [region], and its error is
    the one [Init] returns. *)
Lemma Init_error_origin_witness :
  ∃ e, Init (sdk := sdk) fresh config_region = Returned (Some e) fresh ∧
       ValidateObjectStoreConfigKeys (Azblob := sdk) config_region config_keys
         = Some e.
Proof.
  destruct (Ref.ValidateObjectStoreConfigKeys config_region config_keys)
    as [e|] eqn:Hrefused; [|vm_compute in Hrefused; discriminate Hrefused].
  exists e.
  assert (Hinit : Init (sdk := sdk) fresh config_region = Returned (Some e) fresh).
  { unfold Init. change (ValidateObjectStoreConfigKeys (Azblob := sdk))
      with Ref.ValidateObjectStoreConfigKeys. now rewrite Hrefused. }
  split; [exact Hinit|].
  destruct (Init_error_origin fresh config_region e fresh Hinit)
    as [Hv | [[Hv _] | [Hv _]]]; [exact Hv | |];
    change (ValidateObjectStoreConfigKeys (Azblob := sdk))
      with Ref.ValidateObjectStoreConfigKeys in Hv; congruence.
Defined.

(** Witness of X3: a second [Init] on the config of the scenario. *)
Lemma Init_forgets_previous_state_witness :
  Init (sdk := sdk) fresh config = Returned None ready ∧
  Init (sdk := sdk) ready config = Returned None ready.
Proof.
  assert (Hinit : Init (sdk := sdk) fresh config = Returned None ready)
    by reflexivity.
  split; [exact Hinit|].
  exact (Init_forgets_previous_state fresh config ready Hinit ready).
Defined.

(** Witness of X4: the config without its storage account, with a validator
    that checks the spelling of the keys. *)
Lemma Init_missing_account_witness :
  Alt.config_no_account !! storageAccountConfigKey = None ∧
  Init (sdk := Alt.sdk_spelling environ) fresh Alt.config_no_account =
  Returned None
    {| pipeline := Some (NewPipeline (Some (EmptyString, "base64secret")));
       service := Some (NewServiceURL "https://.blob.core.windows.net"
                          (NewPipeline (Some (EmptyString, "base64secret")))) |}.
Proof.
  split; [reflexivity|].
  apply (Init_missing_account (sdk := Alt.sdk_spelling environ) fresh
           Alt.config_no_account "base64secret" (Some ())
           (Some (EmptyString, "base64secret"))
           "https://.blob.core.windows.net" None); reflexivity.
Defined.

(** Witness of X6: the adapter of the scenario and one with the same service
    handle and a nil pipeline. *)
Lemma operations_read_service_only_witness :
  ObjectExists (sdk := sdk) {| pipeline := None; service := Some endpoint |}
    "backups" "b1/a" store
  = ObjectExists (sdk := sdk) ready "backups" "b1/a" store.
Proof.
  apply (operations_read_service_only (sdk := sdk)
           {| pipeline := None; service := Some endpoint |} ready eq_refl).
Defined.

(** Witness of X11: the service that repeats its page. *)
Lemma ListObjects_marker_never_done_witness :
  ListObjects (sdk := Alt.sdk_same_page environ) 1000 ready "backups" "b1/" store
  = OutOfFuel.
Proof.
  apply (ListObjects_marker_never_done (sdk := Alt.sdk_same_page environ)
           ready endpoint "backups" "b1/" eq_refl).
  intros m w. exists Alt.same_page, w. split; reflexivity.
Defined.

(** Witness of X12: two spellings of one account name. *)
Lemma blob_url_suffix_injective_witness :
  String.append "acct" "1" = "acct1".
Proof.
  apply (blob_url_suffix_injective (String.append "acct" "1") "acct1").
  reflexivity.
Defined.
End Further_runs.

(** ** The adapter on the reference store *)

Section Store.
#[local] Existing Instance Ref.types.
Context (environ : gmap string string).

Lemma request_served {A} (down : A) (serve : Ref.Store → A * Ref.Store) w :
  Ref.request down serve w =
  match Ref.served w with
  | Some w1 => serve w1
  | None => (down, w)
  end.
Proof. unfold Ref.request, Ref.served. now destruct (Ref.budget w) as [[|n]|]. Qed.

Lemma served_blobs w w1 : Ref.served w = Some w1 → Ref.blobs w1 = Ref.blobs w.
Proof.
  unfold Ref.served. destruct (Ref.budget w) as [[|n]|]; intros [= <-]; reflexivity.
Qed.

Lemma served_live w : Ref.budget w = None → Ref.served w = Some w.
Proof. unfold Ref.served. now intros ->. Qed.

Lemma is_blob_iff c k b :
  Ref.is_blob c k b = true ↔ (Ref.blob_in b, Ref.blob_key b) = (c, k).
Proof.
  unfold Ref.is_blob. rewrite andb_true_iff, !String.eqb_eq.
  split; [intros [-> ->]; reflexivity | intros [= -> ->]; now split].
Qed.

Lemma find_remove_same c k bs :
  Ref.find_blob c k (Ref.remove_blob c k bs) = None.
Proof.
  unfold Ref.find_blob, Ref.remove_blob.
  induction bs as [|b bs IH]; [reflexivity|]. simpl.
  destruct (Ref.is_blob c k b) eqn:E; simpl; [exact IH|]. now rewrite E.
Qed.

Lemma find_remove_other c k c' k' bs :
  (c', k') ≠ (c, k) →
  Ref.find_blob c' k' (Ref.remove_blob c k bs) = Ref.find_blob c' k' bs.
Proof.
  intros Hne. unfold Ref.find_blob, Ref.remove_blob.
  induction bs as [|b bs IH]; [reflexivity|]. simpl.
  destruct (Ref.is_blob c k b) eqn:E; simpl.
  - destruct (Ref.is_blob c' k' b) eqn:E'; [|exact IH].
    apply is_blob_iff in E, E'. congruence.
  - now rewrite IH.
Qed.

Lemma find_new_other c k c' k' b bs :
  (Ref.blob_in b, Ref.blob_key b) = (c, k) →
  (c', k') ≠ (c, k) →
  Ref.find_blob c' k' (b :: Ref.remove_blob c k bs) = Ref.find_blob c' k' bs.
Proof.
  intros Hb Hne. unfold Ref.find_blob at 1. simpl.
  destruct (Ref.is_blob c' k' b) eqn:E.
  - apply is_blob_iff in E. congruence.
  - now apply find_remove_other.
Qed.

(** The four operations on a blob, on the store. *)
Lemma DeleteObject_store (o : ObjectStorePreview) s bucket key w :
  service o = Some s →
  DeleteObject (sdk := Ref.sdk environ) o bucket key w =
  match Ref.served w with
  | None => Returned (Some Ref.transport_error) w
  | Some w1 =>
    match Ref.find_blob bucket key (Ref.blobs w1) with
    | None => Returned (Some (Ref.status 404)) w1
    | Some b =>
      match Ref.snapshots b with
      | O => Returned None
               (Ref.with_blobs w1 (Ref.remove_blob bucket key (Ref.blobs w1)))
      | S _ => Returned (Some (Ref.status 409)) w1
      end
    end
  end.
Proof.
  intros Hs.
  destruct (Delete (Azblob := Ref.sdk environ)
              (NewBlobURL (NewContainerURL s bucket) key)
              DeleteSnapshotsOptionNone w) as [err w'] eqn:Hdel.
  rewrite (DeleteObject_run _ _ _ _ _ _ _ Hs Hdel).
  cbn in Hdel. unfold Ref.Delete in Hdel. rewrite request_served in Hdel.
  cbn in Hdel. destruct (Ref.served w) as [w1|]; [|now injection Hdel as <- <-].
  destruct (Ref.find_blob bucket key (Ref.blobs w1)) as [b|];
    [|now injection Hdel as <- <-].
  destruct (Ref.snapshots b); now injection Hdel as <- <-.
Qed.

Lemma PutObject_store (o : ObjectStorePreview) s bucket key body w :
  service o = Some s →
  Ref.budget w = None →
  PutObject (sdk := Ref.sdk environ) o bucket key body w =
  Returned None
    (Ref.with_blobs w
       ({| Ref.blob_in := bucket; Ref.blob_key := key; Ref.content := body;
           Ref.snapshots := match Ref.find_blob bucket key (Ref.blobs w) with
                            | Some b => Ref.snapshots b
                            | None => O
                            end |}
          :: Ref.remove_blob bucket key (Ref.blobs w))).
Proof.
  intros Hs Hlive.
  destruct (UploadStreamToBlockBlob (Azblob := Ref.sdk environ) body
              (NewBlockBlobURL (NewContainerURL s bucket) key) w)
    as [err w'] eqn:Hup.
  rewrite (PutObject_run _ _ _ _ _ _ _ _ Hs Hup).
  cbn in Hup. unfold Ref.UploadStreamToBlockBlob in Hup.
  rewrite request_served, (served_live _ Hlive) in Hup. cbn in Hup.
  now injection Hup as <- <-.
Qed.

Lemma GetObject_store (o : ObjectStorePreview) s bucket key w :
  service o = Some s →
  Ref.budget w = None →
  GetObject (sdk := Ref.sdk environ) o bucket key w =
  match Ref.find_blob bucket key (Ref.blobs w) with
  | Some b => Returned (Some (Ref.content b), None) w
  | None => Returned (None, Some (Ref.status 404)) w
  end.
Proof.
  intros Hs Hlive.
  destruct (Download (Azblob := Ref.sdk environ)
              (NewBlobURL (NewContainerURL s bucket) key) 0 CountToEnd w)
    as [[response err] w'] eqn:Hdl.
  rewrite (GetObject_run _ _ _ _ _ _ _ _ Hs Hdl).
  cbn in Hdl. unfold Ref.Download in Hdl. rewrite request_served in Hdl.
  rewrite (served_live _ Hlive) in Hdl. cbn in Hdl.
  destruct (Ref.find_blob bucket key (Ref.blobs w)) as [b|];
    now injection Hdl as <- <- <-.
Qed.

Lemma ObjectExists_store (o : ObjectStorePreview) s bucket key w :
  service o = Some s →
  Ref.budget w = None →
  ObjectExists (sdk := Ref.sdk environ) o bucket key w =
  match Ref.find_blob bucket key (Ref.blobs w) with
  | Some _ => Returned (true, None) w
  | None => Returned (false, None) w
  end.
Proof.
  intros Hs Hlive. rewrite (ObjectExists_run _ _ _ _ _ Hs).
  cbn. unfold Ref.GetProperties. rewrite request_served.
  rewrite (served_live _ Hlive). cbn.
  now destruct (Ref.find_blob bucket key (Ref.blobs w)).
Qed.

(** C3, as the code has it.  On an initialised adapter and the reference
    store, for every bucket, key and store: when the transport is down
    [DeleteObject] returns the transport error; when the object does not
    exist it returns the 404 of the service; when the object has a snapshot
    it returns the 409 of the service, the delete request carrying no
    snapshots option; in the three cases no blob is deleted.  When the
    object exists and has no snapshot, [DeleteObject] returns nil, the
    object is no longer in the store and every other blob is as before. *)
Theorem DeleteObject_on_store (o : ObjectStorePreview) s bucket key w :
  service o = Some s →
  (Ref.served w = None →
   DeleteObject (sdk := Ref.sdk environ) o bucket key w
   = Returned (Some Ref.transport_error) w) ∧
  (∀ w1, Ref.served w = Some w1 →
     Ref.blobs w1 = Ref.blobs w ∧
     (Ref.find_blob bucket key (Ref.blobs w) = None →
      DeleteObject (sdk := Ref.sdk environ) o bucket key w
      = Returned (Some (Ref.status 404)) w1) ∧
     (∀ b n, Ref.find_blob bucket key (Ref.blobs w) = Some b →
             Ref.snapshots b = S n →
      DeleteObject (sdk := Ref.sdk environ) o bucket key w
      = Returned (Some (Ref.status 409)) w1) ∧
     (∀ b, Ref.find_blob bucket key (Ref.blobs w) = Some b →
           Ref.snapshots b = O →
      ∃ w', DeleteObject (sdk := Ref.sdk environ) o bucket key w = Returned None w' ∧
            Ref.find_blob bucket key (Ref.blobs w') = None ∧
            ∀ c k, (c, k) ≠ (bucket, key) →
                   Ref.find_blob c k (Ref.blobs w') = Ref.find_blob c k (Ref.blobs w))).
Proof.
  intros Hs. rewrite (DeleteObject_store _ _ _ _ _ Hs). split.
  - now intros ->.
  - intros w1 Hserved. rewrite Hserved, (served_blobs _ _ Hserved).
    split; [reflexivity|]. split; [|split].
    + now intros ->.
    + intros b n -> Hsnap. now rewrite Hsnap.
    + intros b -> Hsnap. rewrite Hsnap. eexists. split; [reflexivity|]. simpl.
      split; [apply find_remove_same|]. intros c k Hne. now apply find_remove_other.
Qed.

(** X7.  Upload and download agree on the blob they address and on its
    bytes: on an initialised adapter and the reference store with its
    transport up, [PutObject] returns nil, and in the store it leaves
    [GetObject] on the same bucket and key returns the body that was put,
    whole, [ObjectExists] returns true, and every other blob is as before. *)
Theorem PutObject_then_GetObject (o : ObjectStorePreview) s bucket key body w :
  service o = Some s →
  Ref.budget w = None →
  ∃ w',
    PutObject (sdk := Ref.sdk environ) o bucket key body w = Returned None w' ∧
    GetObject (sdk := Ref.sdk environ) o bucket key w' = Returned (Some body, None) w' ∧
    ObjectExists (sdk := Ref.sdk environ) o bucket key w' = Returned (true, None) w' ∧
    ∀ c k, (c, k) ≠ (bucket, key) →
           Ref.find_blob c k (Ref.blobs w') = Ref.find_blob c k (Ref.blobs w).
Proof.
  intros Hs Hlive. eexists. split; [exact (PutObject_store _ _ _ _ _ _ Hs Hlive)|].
  assert (Hfound : ∀ n bs,
    Ref.find_blob bucket key
      ({| Ref.blob_in := bucket; Ref.blob_key := key; Ref.content := body;
          Ref.snapshots := n |} :: bs)
    = Some {| Ref.blob_in := bucket; Ref.blob_key := key; Ref.content := body;
              Ref.snapshots := n |}).
  { intros n bs. unfold Ref.find_blob, Ref.is_blob. simpl.
    now rewrite !String.eqb_refl. }
  split; [|split].
  - rewrite (GetObject_store _ _ _ _ _ Hs) by exact Hlive.
    unfold Ref.with_blobs. cbn [Ref.blobs]. now rewrite Hfound.
  - rewrite (ObjectExists_store _ _ _ _ _ Hs) by exact Hlive.
    unfold Ref.with_blobs. cbn [Ref.blobs]. now rewrite Hfound.
  - intros c k Hne. simpl. now apply find_new_other.
Qed.

(** X8.  Delete, download and probe agree on the blob they address: on an
    initialised adapter and the reference store with its transport up, after
    a [DeleteObject] that returned nil, [GetObject] on the same bucket and
    key returns a nil stream with the 404 of the service, without a panic,
    and [ObjectExists] returns false with a nil error. *)
Theorem DeleteObject_then_GetObject (o : ObjectStorePreview) s bucket key w w' :
  service o = Some s →
  Ref.budget w = None →
  DeleteObject (sdk := Ref.sdk environ) o bucket key w = Returned None w' →
  GetObject (sdk := Ref.sdk environ) o bucket key w'
    = Returned (None, Some (Ref.status 404)) w' ∧
  ObjectExists (sdk := Ref.sdk environ) o bucket key w' = Returned (false, None) w'.
Proof.
  intros Hs Hlive. rewrite (DeleteObject_store _ _ _ _ _ Hs), (served_live _ Hlive).
  destruct (Ref.find_blob bucket key (Ref.blobs w)) as [b|]; [|discriminate].
  destruct (Ref.snapshots b); [|discriminate]. intros [= <-].
  rewrite (GetObject_store _ _ _ _ _ Hs) by exact Hlive.
  rewrite (ObjectExists_store _ _ _ _ _ Hs) by exact Hlive.
  simpl. now rewrite find_remove_same.
Qed.
End Store.

(** ** Runs on the store of the scenario *)

Section Store_runs.
#[local] Existing Instance Ref.types.
Import Scenario.

(** Witness of C3 as amended: [b1/a] has no snapshot and is deleted. *)
Lemma DeleteObject_on_store_witness :
  ∃ w', DeleteObject (sdk := Ref.sdk environ) ready "backups" "b1/a" store
          = Returned None w' ∧
        Ref.find_blob "backups" "b1/a" (Ref.blobs w') = None.
Proof.
  destruct (DeleteObject_on_store environ ready endpoint "backups" "b1/a" store
              eq_refl) as [_ Hserved].
  destruct (Hserved store eq_refl) as (_ & _ & _ & Hdeleted).
  destruct (Hdeleted (blob "backups" "b1/a" [] 0) eq_refl eq_refl)
    as (w' & Hrun & Hgone & _).
  exists w'. now split.
Defined.

(** Witness of X7: the two bytes of a new [b1/new] are read back. *)
Lemma PutObject_then_GetObject_witness :
  ∃ w', PutObject (sdk := Ref.sdk environ) ready "backups" "b1/new"
          [Byte.x7b; Byte.x7d] store = Returned None w' ∧
        GetObject (sdk := Ref.sdk environ) ready "backups" "b1/new" w'
          = Returned (Some [Byte.x7b; Byte.x7d], None) w'.
Proof.
  destruct (PutObject_then_GetObject environ ready endpoint "backups" "b1/new"
              [Byte.x7b; Byte.x7d] store eq_refl eq_refl)
    as (w' & Hput & Hget & _).
  exists w'. now split.
Defined.

(** Witness of X8: [b1/a] after it is deleted. *)
Lemma DeleteObject_then_GetObject_witness :
  GetObject (sdk := Ref.sdk environ) ready "backups" "b1/a"
    (Ref.with_blobs store (Ref.remove_blob "backups" "b1/a" (Ref.blobs store)))
  = Returned (None, Some (Ref.status 404))
      (Ref.with_blobs store (Ref.remove_blob "backups" "b1/a" (Ref.blobs store))).
Proof.
  apply (DeleteObject_then_GetObject environ ready endpoint "backups" "b1/a" store
           _ eq_refl eq_refl).
  reflexivity.
Defined.
End Store_runs.
